(** * gocryptfs: the symlink-safe extended-attribute gateway

    A shallow embedding of [internal/fusefrontend/xattr_linux.go].

    The Go file talks to four collaborators it does not define: [fs.Open]
    (the plaintext-path opener of the overlay filesystem), the [Release]
    method of an open file object, the logger [tlog.Warn] and the
    attribute syscalls of [github.com/pkg/xattr].  Each call to one of
    them is a node of a program tree ([prog]); the functions of the file
    are written as such trees, in the order the Go code performs the
    calls, and a tree is run against an arbitrary operating system (a
    state type and a function answering each call), recording the calls
    that were made. *)

From Stdlib Require Import ZArith String Ascii List Bool Lia.
From Stdlib Require Import Strings.Byte.
From Stdlib Require Import DecimalString DecimalZ.
From ExtLib Require Import Structures.Monad.
Import ListNotations.
Import MonadNotation.

Local Open Scope string_scope.
Local Open Scope Z_scope.
Local Open Scope monad_scope.

(** ** Data *)

(** [fuse.Status] is an [int32] holding an errno value. *)
Definition Status : Type := Z.

Module syscall.
(** Linux values of the constants the file uses. *)
Definition O_RDONLY : Z := 0.
Definition O_NONBLOCK : Z := 2048.
Definition O_ACCMODE : Z := 3.
Definition ENOENT : Z := 2.
Definition EIO : Z := 5.
Definition EEXIST : Z := 17.
Definition ELOOP : Z := 40.
Definition ENODATA : Z := 61.
Definition ENOTSUP : Z := 95.
End syscall.

Module fuse.
Definition OK : Status := 0.
Definition EIO : Status := syscall.EIO.

(** [func (code Status) Ok() bool { return code == OK }] *)
Definition Ok (code : Status) : bool := code =? OK.

(** [fuse.Context]: the identity of the process that issued the
    request; the gateway only hands it on to [fs.Open]. *)
Record Context : Type := mkContext { Uid : Z; Gid : Z; Pid : Z }.
End fuse.

(** A Go slice is either [nil] or a sequence of elements. *)
Definition slice (A : Type) : Type := option (list A).

(** A non-nil Go [error].  [pkg/xattr] wraps the errno of a failed
    syscall in [*xattr.Error]; any other error value is kept opaque. *)
Inductive goError : Type :=
| XattrError (op path name : string) (errno : Z)
| OtherError (msg : string).

(** The Go [error] interface: [None] is [nil]. *)
Definition error : Type := option goError.

(** [*fusefrontend.File], reduced to what this file reads from it: the
    number of the descriptor it wraps, as returned by [file.intFd()]. *)
Record File : Type := mkFile { intFd : Z }.

(** A value of the interface [nodefs.File], by dynamic type.  [ptrFile]
    always carries a file: an interface that holds a nil [*File] is not
    represented (it would pass the cast in [getFileFd] and be
    dereferenced by [file.intFd()]). *)
Inductive nodefsFile : Type :=
| nilFile
| ptrFile (file : File)
| otherFile (impl : string).

(** ** Calls to the collaborators *)

Inductive call : Type :=
| fs_Open (relPath : string) (flags : Z) (context : option fuse.Context)
| Release (f : nodefsFile)
| tlog_Warn (msg : string)
| xattr_Get (path name : string)
| xattr_SetWithFlags (path name : string) (data : slice byte) (flags : Z)
| xattr_Remove (path name : string)
| xattr_List (path : string).

(** What each call gives back. *)
Definition resp (c : call) : Type :=
  match c with
  | fs_Open _ _ _ => (nodefsFile * Status)%type
  | Release _ => unit
  | tlog_Warn _ => unit
  | xattr_Get _ _ => (slice byte * error)%type
  | xattr_SetWithFlags _ _ _ _ => error
  | xattr_Remove _ _ => error
  | xattr_List _ => (slice string * error)%type
  end.

(** A program: it returns, panics (a method called through a nil
    receiver), or performs a call and goes on with the answer. *)
Inductive prog (R : Type) : Type :=
| Ret (r : R)
| Panic
| Do (c : call) (k : resp c -> prog R).

Arguments Ret {R} r.
Arguments Panic {R}.
Arguments Do {R} c k.

Fixpoint bind_prog {A B : Type} (m : prog A) (f : A -> prog B) : prog B :=
  match m with
  | Ret a => f a
  | Panic => Panic
  | Do c k => Do c (fun x => bind_prog (k x) f)
  end.

#[export] Instance Monad_prog : Monad prog :=
  {| ret := @Ret; bind := @bind_prog |}.

Definition perform (c : call) : prog (resp c) := Do c Ret.

(** Go's [defer d]: [d] runs when the rest of the function is over,
    after its results have been computed, also when it panicked. *)
Fixpoint defer {R : Type} (d : prog unit) (body : prog R) : prog R :=
  match body with
  | Ret r => bind_prog d (fun _ => Ret r)
  | Panic => bind_prog d (fun _ => Panic)
  | Do c k => Do c (fun x => defer d (k x))
  end.

(** ** The functions of xattr_linux.go *)

Definition xattrUserPrefix : string := "user.".

(** [strings.HasPrefix(s, prefix)] is
    [len(s) >= len(prefix) && s[0:len(prefix)] == prefix]. *)
Definition HasPrefix (s pre : string) : bool :=
  (String.length pre <=? String.length s)%nat
  && String.eqb (substring 0 (String.length pre) s) pre.

Definition disallowedXAttrName (attr : string) : bool :=
  negb (HasPrefix attr xattrUserPrefix).

Definition filterXattrSetFlags (flags : Z) : Z := flags.

(** [fmt.Sprintf("/proc/self/fd/%d", fd)] *)
Definition procFd (fd : Z) : string :=
  "/proc/self/fd/" ++ NilZero.string_of_int (Z.to_int fd).

(** [x.Release()] on an interface value or on a [*File]: a nil receiver
    panics. *)
Definition callRelease (x : nodefsFile) : prog unit :=
  match x with
  | nilFile => Panic
  | _ => perform (Release x)
  end.

Definition releaseFile (file : option File) : prog unit :=
  match file with
  | Some f => callRelease (ptrFile f)
  | None => Panic
  end.

Definition getFileFd (relPath : string) (context : option fuse.Context)
  : prog (option File * Z * Status) :=
  '(fuseFile, status) <-
     perform (fs_Open relPath (Z.lor syscall.O_RDONLY syscall.O_NONBLOCK) context) ;;
  if negb (fuse.Ok status) then ret (None, -1, status)
  else
    match fuseFile with
    | ptrFile file => ret (Some file, intFd file, fuse.OK)
    | _ =>
        perform (tlog_Warn "BUG: xattrGet: cast to *File failed") ;;
        callRelease fuseFile ;;
        ret (None, -1, fuse.EIO)
    end.

Section Gateway.

(** [unpackXattrErr] lives in another file of the package; the
    gateway is verified for any translation of errors to statuses. *)
Variable unpackXattrErr : error -> Status.

Definition getXattr (relPath cAttr : string) (context : option fuse.Context)
  : prog (slice byte * Status) :=
  '(file, fd, status) <- getFileFd relPath context ;;
  if negb (fuse.Ok status) then ret (None, status)
  else
    defer (releaseFile file)
      ('(cData, err) <- perform (xattr_Get (procFd fd) cAttr) ;;
       match err with
       | Some _ => ret (None, unpackXattrErr err)
       | None => ret (cData, fuse.OK)
       end).

Definition setXattr (relPath cAttr : string) (cData : slice byte) (flags : Z)
    (context : option fuse.Context) : prog Status :=
  '(file, fd, status) <- getFileFd relPath context ;;
  if negb (fuse.Ok status) then ret status
  else
    defer (releaseFile file)
      (err <- perform (xattr_SetWithFlags (procFd fd) cAttr cData flags) ;;
       ret (unpackXattrErr err)).

Definition removeXAttr (relPath cAttr : string) (context : option fuse.Context)
  : prog Status :=
  '(file, fd, status) <- getFileFd relPath context ;;
  if negb (fuse.Ok status) then ret status
  else
    defer (releaseFile file)
      (err <- perform (xattr_Remove (procFd fd) cAttr) ;;
       ret (unpackXattrErr err)).

Definition listXAttr (relPath : string) (context : option fuse.Context)
  : prog (slice string * Status) :=
  '(file, fd, status) <- getFileFd relPath context ;;
  if negb (fuse.Ok status) then
    if status =? syscall.ELOOP then ret (None, fuse.OK)
    else ret (None, status)
  else
    defer (releaseFile file)
      ('(cNames, err) <- perform (xattr_List (procFd fd)) ;;
       match err with
       | Some _ => ret (None, unpackXattrErr err)
       | None => ret (cNames, fuse.OK)
       end).

End Gateway.

(** ** Running a program against an operating system *)

Inductive outcome (R : Type) : Type :=
| Returned (r : R)
| Panicked.

Arguments Returned {R} r.
Arguments Panicked {R}.

(** What a run leaves behind: how the program ended, the state of the
    system, and the calls it made, oldest first. *)
Record execution (R W : Type) : Type :=
  mkExecution { result : outcome R; final : W; trace : list call }.

Arguments mkExecution {R W} _ _ _.
Arguments result {R W} _.
Arguments final {R W} _.
Arguments trace {R W} _.

(** The attribute syscalls and the path each one addresses. *)
Definition attr_target (c : call) : option string :=
  match c with
  | xattr_Get path _ => Some path
  | xattr_SetWithFlags path _ _ _ => Some path
  | xattr_Remove path _ => Some path
  | xattr_List path => Some path
  | _ => None
  end.

Definition is_attr_syscall (c : call) : bool :=
  match attr_target c with Some _ => true | None => false end.

Definition is_release (c : call) : bool :=
  match c with Release _ => true | _ => false end.

Definition is_open (c : call) : bool :=
  match c with fs_Open _ _ _ => true | _ => false end.

(** The four operations of the gateway, with their arguments besides the
    path and the context. *)
Inductive operation : Type :=
| opGet (cAttr : string)
| opSet (cAttr : string) (cData : slice byte) (flags : Z)
| opRemove (cAttr : string)
| opList.

(** The attribute syscall of an operation, addressed to [path]. *)
Definition attr_call (o : operation) (path : string) : call :=
  match o with
  | opGet cAttr => xattr_Get path cAttr
  | opSet cAttr cData flags => xattr_SetWithFlags path cAttr cData flags
  | opRemove cAttr => xattr_Remove path cAttr
  | opList => xattr_List path
  end.

Definition op_name (o : operation) : option string :=
  match o with
  | opGet cAttr | opSet cAttr _ _ | opRemove cAttr => Some cAttr
  | opList => None
  end.

(** The logger calls, and the attribute syscalls that change what is
    stored. *)
Definition is_warn (c : call) : bool :=
  match c with tlog_Warn _ => true | _ => false end.

Definition is_mutation (c : call) : bool :=
  match c with
  | xattr_SetWithFlags _ _ _ _ | xattr_Remove _ _ => true
  | _ => false
  end.

Definition is_ptrFile (x : nodefsFile) : bool :=
  match x with ptrFile _ => true | _ => false end.

(** The flags [getFileFd] opens with. *)
Definition openFlags : Z := Z.lor syscall.O_RDONLY syscall.O_NONBLOCK.

(** The calls of an operation, read off the answer of [fs.Open]. *)
Definition expected_calls (o : operation) (relPath : string)
    (ctx : option fuse.Context) (ff : nodefsFile) (st : Status) : list call :=
  fs_Open relPath openFlags ctx ::
  (if fuse.Ok st then
     match ff with
     | ptrFile f => [attr_call o (procFd (intFd f)); Release (ptrFile f)]
     | otherFile impl =>
         [tlog_Warn "BUG: xattrGet: cast to *File failed"; Release ff]
     | nilFile => [tlog_Warn "BUG: xattrGet: cast to *File failed"]
     end
   else []).

(** Placing the calls [t] in front of those of [e]. *)
Definition after {R W : Type} (t : list call) (e : execution R W)
  : execution R W :=
  mkExecution (result e) (final e) (t ++ trace e).

Section Semantics.

Variable World : Type.
Variable os : forall c : call, World -> resp c * World.
Variable unpackXattrErr : error -> Status.

Fixpoint run {R : Type} (p : prog R) (w : World) : execution R World :=
  match p with
  | Ret r => mkExecution (Returned r) w []
  | Panic => mkExecution Panicked w []
  | Do c k =>
      let '(x, w1) := os c w in
      let e := run (k x) w1 in
      mkExecution (result e) (final e) (c :: trace e)
  end.

(** The status an operation hands back, whatever else it returns. *)
Definition status_of {A : Type} (o : outcome (A * Status)) : outcome Status :=
  match o with
  | Returned (_, s) => Returned s
  | Panicked => Panicked
  end.

Definition run_op (o : operation) (relPath : string)
    (context : option fuse.Context) (w : World) : execution Status World :=
  match o with
  | opGet cAttr =>
      let e := run (getXattr unpackXattrErr relPath cAttr context) w in
      mkExecution (status_of (result e)) (final e) (trace e)
  | opSet cAttr cData flags =>
      run (setXattr unpackXattrErr relPath cAttr cData flags context) w
  | opRemove cAttr =>
      run (removeXAttr unpackXattrErr relPath cAttr context) w
  | opList =>
      let e := run (listXAttr unpackXattrErr relPath context) w in
      mkExecution (status_of (result e)) (final e) (trace e)
  end.

End Semantics.

Arguments run {World} os {R} p w.
Arguments run_op {World} os unpackXattrErr o relPath context w.

(** ** A small operating system to run the gateway on *)

Module Model.

Inductive node : Type :=
| RegularFile (xattrs : list (string * list byte))
| Symlink (target : string)
| Foreign (impl : string)
| NoXattrFile.

Record world : Type :=
  mkWorld { tree : list (string * node);
            fds : list (Z * string);
            warnings : list string }.

Fixpoint lookup {A : Type} (k : string) (l : list (string * A)) : option A :=
  match l with
  | [] => None
  | (k', a) :: l' => if String.eqb k k' then Some a else lookup k l'
  end.

Definition remove_key {A : Type} (k : string) (l : list (string * A))
  : list (string * A) :=
  filter (fun p => negb (String.eqb k (fst p))) l.

(** The path behind [/proc/self/fd/<n>], for an open descriptor. *)
Definition resolve (path : string) (w : world) : option string :=
  match find (fun p => String.eqb (procFd (fst p)) path) (fds w) with
  | Some (_, target) => Some target
  | None => None
  end.

(** The attributes stored at [path], or the errno of the failure. *)
Definition xattrs_at (path : string) (w : world)
  : Z + (string * list (string * list byte)) :=
  match resolve path w with
  | Some target =>
      match lookup target (tree w) with
      | Some (RegularFile xs) => inr (target, xs)
      | Some NoXattrFile => inl syscall.ENOTSUP
      | _ => inl syscall.ENOENT
      end
  | None => inl syscall.ENOENT
  end.

Definition store (target : string) (xs : list (string * list byte)) (w : world)
  : world :=
  mkWorld ((target, RegularFile xs) :: remove_key target (tree w))
          (fds w) (warnings w).

Definition XATTR_CREATE : Z := 1.
Definition XATTR_REPLACE : Z := 2.

Definition os (c : call) : world -> resp c * world :=
  match c return world -> resp c * world with
  | fs_Open relPath flags _ => fun w =>
      match lookup relPath (tree w) with
      | None => ((nilFile, syscall.ENOENT), w)
      | Some (Symlink _) => ((nilFile, syscall.ELOOP), w)
      | Some (Foreign impl) => ((otherFile impl, fuse.OK), w)
      | Some (RegularFile _) | Some NoXattrFile =>
          let fd := 3 + Z.of_nat (List.length (fds w)) in
          ((ptrFile (mkFile fd), fuse.OK),
           mkWorld (tree w) ((fd, relPath) :: fds w) (warnings w))
      end
  | Release f => fun w =>
      match f with
      | ptrFile file =>
          (tt, mkWorld (tree w)
                 (filter (fun p => negb (fst p =? intFd file)) (fds w))
                 (warnings w))
      | _ => (tt, w)
      end
  | tlog_Warn msg => fun w =>
      (tt, mkWorld (tree w) (fds w) (warnings w ++ [msg]))
  | xattr_Get path name => fun w =>
      match xattrs_at path w with
      | inl errno => ((None, Some (XattrError "xattr.get" path name errno)), w)
      | inr (_, xs) =>
          match lookup name xs with
          | Some v => ((Some v, None), w)
          | None => ((None, Some (XattrError "xattr.get" path name syscall.ENODATA)), w)
          end
      end
  | xattr_SetWithFlags path name data flags => fun w =>
      match xattrs_at path w with
      | inl errno => (Some (XattrError "xattr.set" path name errno), w)
      | inr (target, xs) =>
          match lookup name xs with
          | Some _ =>
              if flags =? XATTR_CREATE
              then (Some (XattrError "xattr.set" path name syscall.EEXIST), w)
              else (None, store target
                            ((name, match data with Some d => d | None => [] end)
                               :: remove_key name xs) w)
          | None =>
              if flags =? XATTR_REPLACE
              then (Some (XattrError "xattr.set" path name syscall.ENODATA), w)
              else (None, store target
                            ((name, match data with Some d => d | None => [] end)
                               :: xs) w)
          end
      end
  | xattr_Remove path name => fun w =>
      match xattrs_at path w with
      | inl errno => (Some (XattrError "xattr.remove" path name errno), w)
      | inr (target, xs) =>
          match lookup name xs with
          | Some _ => (None, store target (remove_key name xs) w)
          | None => (Some (XattrError "xattr.remove" path name syscall.ENODATA), w)
          end
      end
  | xattr_List path => fun w =>
      match xattrs_at path w with
      | inl errno => ((None, Some (XattrError "xattr.list" path "" errno)), w)
      | inr (_, xs) => ((Some (map fst xs), None), w)
      end
  end.

(** Modelled from the spec: [unpackXattrErr] is defined in another
    file of the package.  The spec has it map an operating-system
    failure to the status of the same error kind, with a generic I/O
    failure as the catch-all; no error is success. *)
Definition unpackXattrErr (err : error) : Status :=
  match err with
  | None => fuse.OK
  | Some (XattrError _ _ _ errno) => errno
  | Some (OtherError _) => fuse.EIO
  end.

(** The same system behind an opener that breaks its contract on one
    path: for "ghost" it reports success and hands back no file
    object. *)
Definition os_faulty (c : call) : world -> resp c * world :=
  match c as c0 return world -> resp c0 * world with
  | fs_Open relPath flags context => fun w =>
      if String.eqb relPath "ghost" then ((nilFile, fuse.OK), w)
      else os (fs_Open relPath flags context) w
  | Release f => os (Release f)
  | tlog_Warn msg => os (tlog_Warn msg)
  | xattr_Get path name => os (xattr_Get path name)
  | xattr_SetWithFlags path name data flags =>
      os (xattr_SetWithFlags path name data flags)
  | xattr_Remove path name => os (xattr_Remove path name)
  | xattr_List path => os (xattr_List path)
  end.

(** One regular file that carries an attribute, a symbolic link to
    it, a path served by another file implementation, and a file on
    a filesystem that stores no attributes. *)
Definition w0 : world :=
  mkWorld [("doc.txt", RegularFile [("user.tag", ["x"%byte])]);
           ("link", Symlink "doc.txt");
           ("ctl", Foreign "loopback");
           ("boot.img", NoXattrFile)]
          [] [].

Definition ctx0 : option fuse.Context := Some (fuse.mkContext 1000 1000 4242).

(** The first descriptor the system hands out. *)
Definition file3 : File := mkFile 3.

(** [w0] once [doc.txt] is open on descriptor 3. *)
Definition w0_open : world := mkWorld (tree w0) [(3, "doc.txt")] [].

(** A file that carries attributes of two namespaces. *)
Definition w_mixed : world :=
  mkWorld [("doc.txt", RegularFile [("security.selinux", ["s"%byte]);
                                    ("user.tag", ["x"%byte])])]
          [] [].

End Model.

(** ** Properties of the pure helpers *)

Lemma substring_0_0 (s : string) : substring 0 0 s = "".
Proof. destruct s; reflexivity. Qed.

(** [HasPrefix] decides "begins with". *)
Lemma HasPrefix_spec (pre s : string) :
  HasPrefix s pre = true <-> exists rest, s = pre ++ rest.
Proof.
  unfold HasPrefix. revert s.
  induction pre as [| a pre IH]; intros s.
  - simpl. rewrite substring_0_0. split; [exists s; reflexivity | reflexivity].
  - destruct s as [| b s].
    + simpl. split; [discriminate | intros [rest H]; discriminate].
    + specialize (IH s). simpl in *.
      destruct (Ascii.eqb_spec b a) as [-> | Hne].
      * simpl. rewrite IH. split.
        -- intros [rest ->]. exists rest. reflexivity.
        -- intros [rest H]. injection H as ->. exists rest. reflexivity.
      * split.
        -- rewrite andb_false_r. discriminate.
        -- intros [rest H]. injection H as -> _. contradiction.
Qed.

(** Every alias is an absolute path. *)
Lemma procFd_absolute (fd : Z) : HasPrefix (procFd fd) "/" = true.
Proof. apply HasPrefix_spec. eexists. unfold procFd. simpl. reflexivity. Qed.

(** ** Properties of runs *)

(** Unfold [getFileFd] in the goal and use the answer [H] of [fs.Open]. *)
Ltac open_answer H :=
  unfold getFileFd, openFlags in *; simpl in H |- *; rewrite H; simpl.

Section Facts.

Variable World : Type.
Variable os : forall c : call, World -> resp c * World.
Variable unpackXattrErr : error -> Status.

Lemma run_bind {A B : Type} (m : prog A) (f : A -> prog B) (w : World) :
  run os (bind_prog m f) w =
  match result (run os m w) with
  | Returned a => after (trace (run os m w)) (run os (f a) (final (run os m w)))
  | Panicked => mkExecution Panicked (final (run os m w)) (trace (run os m w))
  end.
Proof.
  revert w. induction m as [a | | c k IH]; intros w; simpl.
  - destruct (run os (f a) w); reflexivity.
  - reflexivity.
  - destruct (os c w) as [x w1]. simpl. rewrite IH.
    destruct (result (run os (k x) w1)); reflexivity.
Qed.

(** A deferred call runs last, on the state the body left, and the
    body's result stands unless the deferred call panics. *)
Lemma run_defer {R : Type} (d : prog unit) (body : prog R) (w : World) :
  run os (defer d body) w =
  let e := run os body w in
  let e' := run os d (final e) in
  mkExecution
    (match result e' with Returned _ => result e | Panicked => Panicked end)
    (final e') (trace e ++ trace e').
Proof.
  revert w. induction body as [r | | c k IH]; intros w; simpl.
  - rewrite run_bind.
    destruct (result (run os d w)); unfold after; simpl;
      rewrite ?app_nil_r; reflexivity.
  - rewrite run_bind.
    destruct (result (run os d w)); unfold after; simpl;
      rewrite ?app_nil_r; reflexivity.
  - destruct (os c w) as [x w1]. simpl. rewrite IH. reflexivity.
Qed.

(** *** getFileFd, case by case on the answer of [fs.Open] *)

Lemma getFileFd_open_failed relPath ctx w ff st w1 :
  os (fs_Open relPath openFlags ctx) w = ((ff, st), w1) ->
  fuse.Ok st = false ->
  run os (getFileFd relPath ctx) w =
  mkExecution (Returned (None, -1, st)) w1 [fs_Open relPath openFlags ctx].
Proof.
  intros Hopen Hst. open_answer Hopen. rewrite Hst. reflexivity.
Qed.

Lemma getFileFd_file relPath ctx w file st w1 :
  os (fs_Open relPath openFlags ctx) w = ((ptrFile file, st), w1) ->
  fuse.Ok st = true ->
  run os (getFileFd relPath ctx) w =
  mkExecution (Returned (Some file, intFd file, fuse.OK)) w1
              [fs_Open relPath openFlags ctx].
Proof.
  intros Hopen Hst. open_answer Hopen. rewrite Hst. reflexivity.
Qed.

Lemma getFileFd_other relPath ctx w impl st w1 :
  os (fs_Open relPath openFlags ctx) w = ((otherFile impl, st), w1) ->
  fuse.Ok st = true ->
  run os (getFileFd relPath ctx) w =
  mkExecution (Returned (None, -1, fuse.EIO))
    (snd (os (Release (otherFile impl))
            (snd (os (tlog_Warn "BUG: xattrGet: cast to *File failed") w1))))
    [fs_Open relPath openFlags ctx;
     tlog_Warn "BUG: xattrGet: cast to *File failed";
     Release (otherFile impl)].
Proof.
  intros Hopen Hst. open_answer Hopen. rewrite Hst. simpl.
  destruct (os (tlog_Warn _) w1) as [u w2]. simpl.
  destruct (os (Release _) w2) as [u' w3]. reflexivity.
Qed.

Lemma getFileFd_nil relPath ctx w st w1 :
  os (fs_Open relPath openFlags ctx) w = ((nilFile, st), w1) ->
  fuse.Ok st = true ->
  run os (getFileFd relPath ctx) w =
  mkExecution Panicked
    (snd (os (tlog_Warn "BUG: xattrGet: cast to *File failed") w1))
    [fs_Open relPath openFlags ctx;
     tlog_Warn "BUG: xattrGet: cast to *File failed"].
Proof.
  intros Hopen Hst. open_answer Hopen. rewrite Hst. simpl.
  destruct (os (tlog_Warn _) w1) as [u w2]. reflexivity.
Qed.

(** What [getFileFd] returned tells what [fs.Open] answered. *)
Lemma getFileFd_acquired_inv relPath ctx w file fd st :
  result (run os (getFileFd relPath ctx) w) = Returned (file, fd, st) ->
  fuse.Ok st = true ->
  exists f st' w1,
    os (fs_Open relPath openFlags ctx) w = ((ptrFile f, st'), w1)
    /\ fuse.Ok st' = true /\ file = Some f /\ fd = intFd f /\ st = fuse.OK.
Proof.
  intros Hres Hst.
  destruct (os (fs_Open relPath openFlags ctx) w) as [[ff st'] w1] eqn:Hopen.
  destruct (fuse.Ok st') eqn:Hst'.
  - destruct ff as [| f | impl].
    + rewrite (getFileFd_nil _ _ _ _ _ Hopen Hst') in Hres. discriminate.
    + rewrite (getFileFd_file _ _ _ _ _ _ Hopen Hst') in Hres.
      injection Hres as <- <- <-. exists f, st', w1. auto.
    + rewrite (getFileFd_other _ _ _ _ _ _ Hopen Hst') in Hres.
      injection Hres as _ _ <-. discriminate.
  - rewrite (getFileFd_open_failed _ _ _ _ _ _ Hopen Hst') in Hres.
    injection Hres as _ _ <-. congruence.
Qed.

(** [getFileFd] itself issues no attribute syscall. *)
Lemma getFileFd_no_attr_syscall relPath ctx w :
  filter is_attr_syscall (trace (run os (getFileFd relPath ctx) w)) = [].
Proof.
  destruct (os (fs_Open relPath openFlags ctx) w) as [[ff st] w1] eqn:Hopen.
  destruct (fuse.Ok st) eqn:Hst.
  - destruct ff as [| f | impl].
    + rewrite (getFileFd_nil _ _ _ _ _ Hopen Hst). reflexivity.
    + rewrite (getFileFd_file _ _ _ _ _ _ Hopen Hst). reflexivity.
    + rewrite (getFileFd_other _ _ _ _ _ _ Hopen Hst). reflexivity.
  - rewrite (getFileFd_open_failed _ _ _ _ _ _ Hopen Hst). reflexivity.
Qed.

(** *** The operations when acquisition failed *)

Section AcquisitionFailed.

Variables (relPath : string) (ctx : option fuse.Context) (w : World).
Variables (file : option File) (fd : Z) (st : Status).
Hypothesis Hacq :
  result (run os (getFileFd relPath ctx) w) = Returned (file, fd, st).
Hypothesis Hst : fuse.Ok st = false.

Let eg := run os (getFileFd relPath ctx) w.

Lemma getXattr_not_acquired cAttr :
  run os (getXattr unpackXattrErr relPath cAttr ctx) w =
  mkExecution (Returned (None, st)) (final eg) (trace eg).
Proof.
  unfold getXattr, bind, Monad_prog. rewrite run_bind, Hacq.
  simpl. rewrite Hst. unfold after. simpl. rewrite app_nil_r. reflexivity.
Qed.

Lemma setXattr_not_acquired cAttr cData flags :
  run os (setXattr unpackXattrErr relPath cAttr cData flags ctx) w =
  mkExecution (Returned st) (final eg) (trace eg).
Proof.
  unfold setXattr, bind, Monad_prog. rewrite run_bind, Hacq.
  simpl. rewrite Hst. unfold after. simpl. rewrite app_nil_r. reflexivity.
Qed.

Lemma removeXAttr_not_acquired cAttr :
  run os (removeXAttr unpackXattrErr relPath cAttr ctx) w =
  mkExecution (Returned st) (final eg) (trace eg).
Proof.
  unfold removeXAttr, bind, Monad_prog. rewrite run_bind, Hacq.
  simpl. rewrite Hst. unfold after. simpl. rewrite app_nil_r. reflexivity.
Qed.

Lemma listXAttr_not_acquired :
  run os (listXAttr unpackXattrErr relPath ctx) w =
  mkExecution
    (Returned (None, if st =? syscall.ELOOP then fuse.OK else st))
    (final eg) (trace eg).
Proof.
  unfold listXAttr, bind, Monad_prog. rewrite run_bind, Hacq.
  simpl. rewrite Hst.
  destruct (st =? syscall.ELOOP);
    unfold after; simpl; rewrite app_nil_r; reflexivity.
Qed.

End AcquisitionFailed.

(** *** The operations once a descriptor is held *)

Section Acquired.

Variables (relPath : string) (ctx : option fuse.Context) (w w1 : World).
Variables (f : File) (st : Status).
Hypothesis Hopen :
  os (fs_Open relPath openFlags ctx) w = ((ptrFile f, st), w1).
Hypothesis Hst : fuse.Ok st = true.

Let alias := procFd (intFd f).

(** Each operation makes three calls: open, its attribute syscall
    on the alias, release. *)
Lemma run_op_acquired_trace o :
  trace (run_op os unpackXattrErr o relPath ctx w) =
  [fs_Open relPath openFlags ctx; attr_call o alias; Release (ptrFile f)].
Proof.
  pose proof (getFileFd_file _ _ _ _ _ _ Hopen Hst) as Hg.
  destruct o as [cAttr | cAttr cData flags | cAttr |];
    unfold run_op; cbn [trace];
    unfold getXattr, setXattr, removeXAttr, listXAttr, bind, Monad_prog;
    rewrite run_bind, Hg; cbn [result final trace after fuse.Ok fuse.OK
                               Z.eqb negb app];
    rewrite run_defer; simpl.
  - destruct (os (xattr_Get _ _) w1) as [[cData [e |]] w2]; simpl;
      destruct (os (Release _) w2); reflexivity.
  - destruct (os (xattr_SetWithFlags _ _ _ _) w1) as [err w2]; simpl;
      destruct (os (Release _) w2); reflexivity.
  - destruct (os (xattr_Remove _ _) w1) as [err w2]; simpl;
      destruct (os (Release _) w2); reflexivity.
  - destruct (os (xattr_List _) w1) as [[cNames [e |]] w2]; simpl;
      destruct (os (Release _) w2); reflexivity.
Qed.

(** The results, from the answer of the attribute syscall. *)
Lemma getXattr_acquired_result cAttr :
  result (run os (getXattr unpackXattrErr relPath cAttr ctx) w) =
  Returned
    (let '(cData, err) := fst (os (xattr_Get alias cAttr) w1) in
     match err with
     | Some _ => (None, unpackXattrErr err)
     | None => (cData, fuse.OK)
     end).
Proof.
  pose proof (getFileFd_file _ _ _ _ _ _ Hopen Hst) as Hg.
  unfold getXattr, bind, Monad_prog. rewrite run_bind, Hg.
  cbn [result final trace after fuse.Ok fuse.OK Z.eqb negb app].
  rewrite run_defer. simpl. fold alias.
  destruct (os (xattr_Get alias cAttr) w1) as [[cData [e |]] w2]; simpl;
    destruct (os (Release _) w2); reflexivity.
Qed.

Lemma setXattr_acquired_result cAttr cData flags :
  result (run os (setXattr unpackXattrErr relPath cAttr cData flags ctx) w) =
  Returned
    (unpackXattrErr (fst (os (xattr_SetWithFlags alias cAttr cData flags) w1))).
Proof.
  pose proof (getFileFd_file _ _ _ _ _ _ Hopen Hst) as Hg.
  unfold setXattr, bind, Monad_prog. rewrite run_bind, Hg.
  cbn [result final trace after fuse.Ok fuse.OK Z.eqb negb app].
  rewrite run_defer. simpl. fold alias.
  destruct (os (xattr_SetWithFlags alias cAttr cData flags) w1) as [err w2];
    simpl; destruct (os (Release _) w2); reflexivity.
Qed.

Lemma removeXAttr_acquired_result cAttr :
  result (run os (removeXAttr unpackXattrErr relPath cAttr ctx) w) =
  Returned (unpackXattrErr (fst (os (xattr_Remove alias cAttr) w1))).
Proof.
  pose proof (getFileFd_file _ _ _ _ _ _ Hopen Hst) as Hg.
  unfold removeXAttr, bind, Monad_prog. rewrite run_bind, Hg.
  cbn [result final trace after fuse.Ok fuse.OK Z.eqb negb app].
  rewrite run_defer. simpl. fold alias.
  destruct (os (xattr_Remove alias cAttr) w1) as [err w2];
    simpl; destruct (os (Release _) w2); reflexivity.
Qed.

Lemma listXAttr_acquired_result :
  result (run os (listXAttr unpackXattrErr relPath ctx) w) =
  Returned
    (let '(cNames, err) := fst (os (xattr_List alias) w1) in
     match err with
     | Some _ => (None, unpackXattrErr err)
     | None => (cNames, fuse.OK)
     end).
Proof.
  pose proof (getFileFd_file _ _ _ _ _ _ Hopen Hst) as Hg.
  unfold listXAttr, bind, Monad_prog. rewrite run_bind, Hg.
  cbn [result final trace after fuse.Ok fuse.OK Z.eqb negb app].
  rewrite run_defer. simpl. fold alias.
  destruct (os (xattr_List alias) w1) as [[cNames [e |]] w2]; simpl;
    destruct (os (Release _) w2); reflexivity.
Qed.

End Acquired.

(** *** The operations, from what [getFileFd] did *)

Lemma run_op_not_acquired o relPath ctx w file fd st :
  result (run os (getFileFd relPath ctx) w) = Returned (file, fd, st) ->
  fuse.Ok st = false ->
  trace (run_op os unpackXattrErr o relPath ctx w) =
    trace (run os (getFileFd relPath ctx) w)
  /\ result (run_op os unpackXattrErr o relPath ctx w) =
     Returned (match o with
               | opList => if st =? syscall.ELOOP then fuse.OK else st
               | _ => st
               end).
Proof.
  intros Hacq Hst. destruct o; unfold run_op.
  - rewrite (getXattr_not_acquired _ _ _ _ _ _ Hacq Hst). split; reflexivity.
  - rewrite (setXattr_not_acquired _ _ _ _ _ _ Hacq Hst). split; reflexivity.
  - rewrite (removeXAttr_not_acquired _ _ _ _ _ _ Hacq Hst). split; reflexivity.
  - rewrite (listXAttr_not_acquired _ _ _ _ _ _ Hacq Hst). split; reflexivity.
Qed.

Lemma run_op_panicked o relPath ctx w :
  result (run os (getFileFd relPath ctx) w) = Panicked ->
  trace (run_op os unpackXattrErr o relPath ctx w) =
    trace (run os (getFileFd relPath ctx) w)
  /\ result (run_op os unpackXattrErr o relPath ctx w) = Panicked.
Proof.
  intros Hp. destruct o; unfold run_op;
    unfold getXattr, setXattr, removeXAttr, listXAttr, bind, Monad_prog;
    rewrite run_bind, Hp; split; reflexivity.
Qed.

Lemma run_op_trace o relPath ctx w ff st w1 :
  os (fs_Open relPath openFlags ctx) w = ((ff, st), w1) ->
  trace (run_op os unpackXattrErr o relPath ctx w) =
  expected_calls o relPath ctx ff st.
Proof.
  intros Hopen. unfold expected_calls. destruct (fuse.Ok st) eqn:Hst.
  - destruct ff as [| f | impl].
    + pose proof (getFileFd_nil _ _ _ _ _ Hopen Hst) as Hg.
      assert (Hp : result (run os (getFileFd relPath ctx) w) = Panicked)
        by (rewrite Hg; reflexivity).
      destruct (run_op_panicked o _ _ _ Hp) as [-> _].
      rewrite Hg. reflexivity.
    + apply (run_op_acquired_trace _ _ _ _ _ _ Hopen Hst).
    + pose proof (getFileFd_other _ _ _ _ _ _ Hopen Hst) as Hg.
      assert (Hacq : result (run os (getFileFd relPath ctx) w)
                     = Returned (None, -1, fuse.EIO))
        by (rewrite Hg; reflexivity).
      destruct (run_op_not_acquired o _ _ _ _ _ _ Hacq eq_refl) as [-> _].
      rewrite Hg. reflexivity.
  - pose proof (getFileFd_open_failed _ _ _ _ _ _ Hopen Hst) as Hg.
    assert (Hacq : result (run os (getFileFd relPath ctx) w)
                   = Returned (None, -1, st))
      by (rewrite Hg; reflexivity).
    destruct (run_op_not_acquired o _ _ _ _ _ _ Hacq Hst) as [-> _].
    rewrite Hg. reflexivity.
Qed.

End Facts.

Lemma attr_call_is_attr_syscall (o : operation) (path : string) :
  is_attr_syscall (attr_call o path) = true.
Proof. destruct o; reflexivity. Qed.

Lemma attr_call_target (o : operation) (path : string) :
  attr_target (attr_call o path) = Some path.
Proof. destruct o; reflexivity. Qed.

Lemma attr_call_is_not_release (o : operation) (path : string) :
  is_release (attr_call o path) = false.
Proof. destruct o; reflexivity. Qed.

(** ** The gateway's guarantees *)

Section Claims.

Variable World : Type.
Variable os : forall c : call, World -> resp c * World.
Variable unpackXattrErr : error -> Status.

(** C1.  Once [getFileFd] has handed out a descriptor [fd], the one
    attribute syscall an operation (get, set, remove or list) issues
    addresses the alias [procFd fd].  The alias is an absolute path,
    so it is never the relative path the operation was given. *)
Theorem attr_syscall_targets_alias o relPath ctx w file fd st :
  result (run os (getFileFd relPath ctx) w) = Returned (file, fd, st) ->
  fuse.Ok st = true ->
  let calls := trace (run_op os unpackXattrErr o relPath ctx w) in
  filter is_attr_syscall calls = [attr_call o (procFd fd)]
  /\ (forall c, In c calls -> is_attr_syscall c = true ->
                attr_target c = Some (procFd fd))
  /\ (HasPrefix relPath "/" = false ->
      forall c, In c calls -> attr_target c <> Some relPath).
Proof.
  intros Hacq Hst calls.
  destruct (getFileFd_acquired_inv _ os _ _ _ _ _ _ Hacq Hst)
    as (f & st' & w1 & Hopen & Hst' & -> & -> & ->).
  assert (Hcalls : calls = [fs_Open relPath openFlags ctx;
                            attr_call o (procFd (intFd f));
                            Release (ptrFile f)])
    by apply (run_op_acquired_trace _ os unpackXattrErr _ _ _ _ _ _ Hopen Hst').
  rewrite Hcalls. clear Hcalls calls. split; [| split].
  - simpl. rewrite attr_call_is_attr_syscall. reflexivity.
  - intros c [<- | [<- | [<- | []]]] Hc; try discriminate Hc.
    apply attr_call_target.
  - intros Hrel c [<- | [<- | [<- | []]]]; try discriminate.
    rewrite attr_call_target. intros [= Heq].
    rewrite <- Heq, procFd_absolute in Hrel. discriminate.
Qed.

(** C2.  When [getFileFd] fails inside [listXAttr]: a failure with
    ELOOP becomes an empty success (nil names, OK); any other failure
    is returned as it is.  No attribute syscall is made either way. *)
Theorem listXAttr_acquisition_failure relPath ctx w file fd st :
  result (run os (getFileFd relPath ctx) w) = Returned (file, fd, st) ->
  fuse.Ok st = false ->
  let e := run os (listXAttr unpackXattrErr relPath ctx) w in
  (st = syscall.ELOOP -> result e = Returned (None, fuse.OK))
  /\ (st <> syscall.ELOOP -> result e = Returned (None, st))
  /\ filter is_attr_syscall (trace e) = [].
Proof.
  intros Hacq Hst e. unfold e.
  rewrite (listXAttr_not_acquired _ os unpackXattrErr _ _ _ _ _ _ Hacq Hst).
  cbn [result trace]. split; [| split].
  - intros ->. reflexivity.
  - intros Hne. destruct (Z.eqb_spec st syscall.ELOOP); [contradiction | reflexivity].
  - apply getFileFd_no_attr_syscall.
Qed.

(** C3.  [disallowedXAttrName] answers false exactly for the names
    that begin with "user." and true for all others; equal names get
    equal answers. *)
Theorem disallowedXAttrName_spec attr :
  (disallowedXAttrName attr = false <->
     exists rest, attr = xattrUserPrefix ++ rest)
  /\ (disallowedXAttrName attr = true <->
        ~ exists rest, attr = xattrUserPrefix ++ rest)
  /\ (forall attr', attr' = attr ->
        disallowedXAttrName attr' = disallowedXAttrName attr).
Proof.
  pose proof (HasPrefix_spec xattrUserPrefix attr) as Hspec.
  split; [| split]; [| | intros attr' ->; reflexivity];
    unfold disallowedXAttrName;
    destruct (HasPrefix attr xattrUserPrefix); cbn [negb]; split.
  - intros _. apply Hspec. reflexivity.
  - reflexivity.
  - discriminate.
  - intros H. apply Hspec in H. discriminate.
  - discriminate.
  - intros Hno. exfalso. apply Hno, Hspec. reflexivity.
  - intros _ H. apply Hspec in H. discriminate.
  - reflexivity.
Qed.

(** C4.  In each of the four operations the file object that
    [fs.Open] returned is released exactly once, whether the attribute
    syscall succeeds or fails and also when the cast to [*File] inside
    [getFileFd] fails; when [fs.Open] failed nothing is released. *)
Theorem handle_released_exactly_once o relPath ctx w ff st w1 :
  os (fs_Open relPath openFlags ctx) w = ((ff, st), w1) ->
  let calls := trace (run_op os unpackXattrErr o relPath ctx w) in
  (fuse.Ok st = true -> ff <> nilFile -> filter is_release calls = [Release ff])
  /\ (fuse.Ok st = false -> filter is_release calls = []).
Proof.
  intros Hopen calls. unfold calls.
  rewrite (run_op_trace _ os unpackXattrErr _ _ _ _ _ _ _ Hopen).
  unfold expected_calls. split; intros Hst; rewrite Hst.
  - intros Hnil. destruct ff as [| f | impl]; [contradiction | |].
    + simpl. rewrite attr_call_is_not_release. reflexivity.
    + reflexivity.
  - reflexivity.
Qed.

(** C5.  When [getFileFd] returns a status that is not OK, getXattr,
    setXattr and removeXAttr return that status (getXattr with a nil
    value) and make no call beyond those of [getFileFd], none of which
    is an attribute syscall. *)
Theorem acquisition_failure_short_circuits
    relPath cAttr cData flags ctx w file fd st :
  result (run os (getFileFd relPath ctx) w) = Returned (file, fd, st) ->
  fuse.Ok st = false ->
  let eg := run os (getFileFd relPath ctx) w in
  run os (getXattr unpackXattrErr relPath cAttr ctx) w
    = mkExecution (Returned (None, st)) (final eg) (trace eg)
  /\ run os (setXattr unpackXattrErr relPath cAttr cData flags ctx) w
     = mkExecution (Returned st) (final eg) (trace eg)
  /\ run os (removeXAttr unpackXattrErr relPath cAttr ctx) w
     = mkExecution (Returned st) (final eg) (trace eg)
  /\ filter is_attr_syscall (trace eg) = [].
Proof.
  intros Hacq Hst eg. repeat split.
  - apply (getXattr_not_acquired _ os unpackXattrErr _ _ _ _ _ _ Hacq Hst).
  - apply (setXattr_not_acquired _ os unpackXattrErr _ _ _ _ _ _ Hacq Hst).
  - apply (removeXAttr_not_acquired _ os unpackXattrErr _ _ _ _ _ _ Hacq Hst).
  - apply getFileFd_no_attr_syscall.
Qed.

(** C6.  [getFileFd] begins by opening the path, opens it once, and
    the flags of that open are O_RDONLY|O_NONBLOCK: read-only access
    mode, the non-blocking bit, and no other bit. *)
Theorem getFileFd_opens_rdonly_nonblock relPath ctx w :
  let calls := trace (run os (getFileFd relPath ctx) w) in
  let flags := Z.lor syscall.O_RDONLY syscall.O_NONBLOCK in
  hd_error calls = Some (fs_Open relPath flags ctx)
  /\ filter is_open calls = [fs_Open relPath flags ctx]
  /\ Z.land flags syscall.O_ACCMODE = syscall.O_RDONLY
  /\ Z.land flags syscall.O_NONBLOCK = syscall.O_NONBLOCK
  /\ Z.ldiff flags (Z.lor syscall.O_ACCMODE syscall.O_NONBLOCK) = 0.
Proof.
  intros calls flags. unfold calls, flags. fold openFlags.
  destruct (os (fs_Open relPath openFlags ctx) w) as [[ff st] w1] eqn:Hopen.
  destruct (fuse.Ok st) eqn:Hst; [destruct ff as [| f | impl] |].
  - rewrite (getFileFd_nil _ os _ _ _ _ _ Hopen Hst). repeat split.
  - rewrite (getFileFd_file _ os _ _ _ _ _ _ Hopen Hst). repeat split.
  - rewrite (getFileFd_other _ os _ _ _ _ _ _ Hopen Hst). repeat split.
  - rewrite (getFileFd_open_failed _ os _ _ _ _ _ _ Hopen Hst). repeat split.
Qed.

(** C7.  [filterXattrSetFlags] returns its argument, and the
    [xattr.SetWithFlags] call that setXattr makes once it holds a
    descriptor carries the [flags] (and name and value) it was given. *)
Theorem setXattr_passes_flags_unmodified :
  (forall flags, filterXattrSetFlags flags = flags)
  /\ (forall relPath cAttr cData flags ctx w file fd st,
        result (run os (getFileFd relPath ctx) w) = Returned (file, fd, st) ->
        fuse.Ok st = true ->
        filter is_attr_syscall
          (trace (run os (setXattr unpackXattrErr relPath cAttr cData flags ctx) w))
        = [xattr_SetWithFlags (procFd fd) cAttr cData flags]).
Proof.
  split; [reflexivity |].
  intros relPath cAttr cData flags ctx w file fd st Hacq Hst.
  destruct (getFileFd_acquired_inv _ os _ _ _ _ _ _ Hacq Hst)
    as (f & st' & w1 & Hopen & Hst' & -> & -> & ->).
  pose proof (run_op_acquired_trace _ os unpackXattrErr _ _ _ _ _ _ Hopen Hst'
                (opSet cAttr cData flags)) as Ht.
  unfold run_op in Ht. rewrite Ht. reflexivity.
Qed.


(** C9.  The calls of an operation are fixed by the answer of
    [fs.Open] alone, for every attribute name: no operation consults
    [disallowedXAttrName], and a name it would reject reaches the
    attribute syscall like any other. *)
Theorem gateway_has_no_namespace_check o relPath ctx w ff st w1 :
  os (fs_Open relPath openFlags ctx) w = ((ff, st), w1) ->
  let calls := trace (run_op os unpackXattrErr o relPath ctx w) in
  calls = expected_calls o relPath ctx ff st
  /\ (forall f cAttr,
        ff = ptrFile f -> fuse.Ok st = true ->
        op_name o = Some cAttr -> disallowedXAttrName cAttr = true ->
        In (attr_call o (procFd (intFd f))) calls).
Proof.
  intros Hopen calls. unfold calls.
  rewrite (run_op_trace _ os unpackXattrErr _ _ _ _ _ _ _ Hopen). split.
  - reflexivity.
  - intros f cAttr -> Hst _ _. unfold expected_calls. rewrite Hst.
    simpl. auto.
Qed.

(** C10.  In [listXAttr], when the open succeeded and [xattr.List]
    fails, the result is nil names with the status [unpackXattrErr]
    gives for the error.  The ELOOP downgrade does not apply: a
    translated ELOOP is returned as ELOOP, and the result is a success
    only if the translated status itself is OK. *)
Theorem listXAttr_syscall_failure_not_downgraded
    relPath ctx w f st w1 names err w2 :
  os (fs_Open relPath openFlags ctx) w = ((ptrFile f, st), w1) ->
  fuse.Ok st = true ->
  os (xattr_List (procFd (intFd f))) w1 = ((names, Some err), w2) ->
  let r := result (run os (listXAttr unpackXattrErr relPath ctx) w) in
  r = Returned (None, unpackXattrErr (Some err))
  /\ (unpackXattrErr (Some err) = syscall.ELOOP ->
      r = Returned (None, syscall.ELOOP))
  /\ (fuse.Ok (unpackXattrErr (Some err)) = false ->
      forall cNames, r <> Returned (cNames, fuse.OK)).
Proof.
  intros Hopen Hst Hlist r.
  assert (Hr : r = Returned (None, unpackXattrErr (Some err))).
  { unfold r.
    rewrite (listXAttr_acquired_result _ os unpackXattrErr _ _ _ _ _ _ Hopen Hst).
    rewrite Hlist. reflexivity. }
  rewrite Hr. split; [reflexivity | split].
  - intros ->. reflexivity.
  - intros Hno cNames [= _ Heq]. rewrite Heq in Hno. discriminate.
Qed.

End Claims.

(** ** Further properties of the file *)

Lemma to_int_not_nil (z : Z) :
  Z.to_int z <> Decimal.Pos Decimal.Nil /\ Z.to_int z <> Decimal.Neg Decimal.Nil.
Proof.
  split; intros H; pose proof (DecimalZ.of_to z) as Hz; rewrite H in Hz;
    simpl in Hz; subst z; discriminate H.
Qed.

Lemma append_inj_l (p a b : string) : p ++ a = p ++ b -> a = b.
Proof.
  induction p as [| c p IH]; simpl; intros H; [exact H |].
  injection H as H. auto.
Qed.

Lemma attr_call_is_not_open (o : operation) (path : string) :
  is_open (attr_call o path) = false.
Proof. destruct o; reflexivity. Qed.

Lemma attr_call_is_not_warn (o : operation) (path : string) :
  is_warn (attr_call o path) = false.
Proof. destruct o; reflexivity. Qed.

Section Extras.

Variable World : Type.
Variable os : forall c : call, World -> resp c * World.
Variable unpackXattrErr : error -> Status.

(** X1.  Two different descriptors never share an alias: [procFd] is
    injective on all integers, negative ones included. *)
Theorem procFd_distinct fd fd' :
  fd <> fd' -> procFd fd <> procFd fd'.
Proof.
  intros Hne Heq. apply Hne. unfold procFd in Heq.
  apply append_inj_l in Heq.
  destruct (to_int_not_nil fd) as [Hp Hn].
  destruct (to_int_not_nil fd') as [Hp' Hn'].
  pose proof (NilZero.isi _ Hp Hn) as H1.
  pose proof (NilZero.isi _ Hp' Hn') as H2.
  rewrite Heq, H2 in H1. injection H1 as H1.
  apply DecimalZ.to_int_inj. symmetry. exact H1.
Qed.

(** X2.  What [getFileFd] returns hangs together: the status is OK
    exactly when a file comes with it; with a file, the descriptor is
    that file's and the status is [fuse.OK]; without one, the
    descriptor is -1. *)
Theorem getFileFd_result_invariant relPath ctx w file fd st :
  result (run os (getFileFd relPath ctx) w) = Returned (file, fd, st) ->
  (fuse.Ok st = true <-> file <> None)
  /\ (file = None -> fd = -1)
  /\ (forall f, file = Some f -> fd = intFd f /\ st = fuse.OK).
Proof.
  intros Hres.
  destruct (os (fs_Open relPath openFlags ctx) w) as [[ff st'] w1] eqn:Hopen.
  destruct (fuse.Ok st') eqn:Hst'; [destruct ff as [| f | impl] |].
  - rewrite (getFileFd_nil _ os _ _ _ _ _ Hopen Hst') in Hres. discriminate.
  - rewrite (getFileFd_file _ os _ _ _ _ _ _ Hopen Hst') in Hres.
    injection Hres as <- <- <-.
    split; [split; intros H | split; [intros H | intros g H]].
    + discriminate.
    + reflexivity.
    + discriminate H.
    + injection H as <-. split; reflexivity.
  - rewrite (getFileFd_other _ os _ _ _ _ _ _ Hopen Hst') in Hres.
    injection Hres as <- <- <-.
    split; [split; intros H | split; [intros H | intros g H]].
    + discriminate H.
    + exfalso. apply H. reflexivity.
    + reflexivity.
    + discriminate H.
  - rewrite (getFileFd_open_failed _ os _ _ _ _ _ _ Hopen Hst') in Hres.
    injection Hres as <- <- <-.
    split; [split; intros H | split; [intros H | intros g H]].
    + congruence.
    + exfalso. apply H. reflexivity.
    + reflexivity.
    + discriminate H.
Qed.

(** X3.  With a descriptor held, getXattr returns the bytes
    [xattr.Get] gave with status OK when the syscall reports no error,
    and nil with the translated status when it reports one: bytes that
    come along with an error are dropped. *)
Theorem getXattr_result relPath cAttr ctx w f st w1 cData err w2 :
  os (fs_Open relPath openFlags ctx) w = ((ptrFile f, st), w1) ->
  fuse.Ok st = true ->
  os (xattr_Get (procFd (intFd f)) cAttr) w1 = ((cData, err), w2) ->
  result (run os (getXattr unpackXattrErr relPath cAttr ctx) w) =
  Returned (match err with
            | None => (cData, fuse.OK)
            | Some _ => (None, unpackXattrErr err)
            end).
Proof.
  intros Hopen Hst Hget.
  rewrite (getXattr_acquired_result _ os unpackXattrErr _ _ _ _ _ _ Hopen Hst).
  rewrite Hget. destruct err; reflexivity.
Qed.

(** X4.  With a descriptor held, the status of setXattr and of
    removeXAttr is [unpackXattrErr] applied to whatever the syscall
    returned, a nil error included: neither function decides success
    on its own. *)
Theorem set_remove_status_is_translated
    relPath cAttr cData flags ctx w f st w1 :
  os (fs_Open relPath openFlags ctx) w = ((ptrFile f, st), w1) ->
  fuse.Ok st = true ->
  result (run os (setXattr unpackXattrErr relPath cAttr cData flags ctx) w)
    = Returned (unpackXattrErr
                  (fst (os (xattr_SetWithFlags (procFd (intFd f)) cAttr cData flags) w1)))
  /\ result (run os (removeXAttr unpackXattrErr relPath cAttr ctx) w)
     = Returned (unpackXattrErr
                   (fst (os (xattr_Remove (procFd (intFd f)) cAttr) w1))).
Proof.
  intros Hopen Hst. split.
  - apply (setXattr_acquired_result _ os unpackXattrErr _ _ _ _ _ _ Hopen Hst).
  - apply (removeXAttr_acquired_result _ os unpackXattrErr _ _ _ _ _ _ Hopen Hst).
Qed.

(** X5.  When [xattr.List] succeeds, listXAttr returns the names it
    gave, all of them and in the same order, with status OK; names
    that [disallowedXAttrName] rejects are not taken out. *)
Theorem listXAttr_returns_names_unfiltered relPath ctx w f st w1 cNames w2 :
  os (fs_Open relPath openFlags ctx) w = ((ptrFile f, st), w1) ->
  fuse.Ok st = true ->
  os (xattr_List (procFd (intFd f))) w1 = ((cNames, None), w2) ->
  result (run os (listXAttr unpackXattrErr relPath ctx) w)
  = Returned (cNames, fuse.OK).
Proof.
  intros Hopen Hst Hlist.
  rewrite (listXAttr_acquired_result _ os unpackXattrErr _ _ _ _ _ _ Hopen Hst).
  rewrite Hlist. reflexivity.
Qed.

(** X6.  With a descriptor held, the attribute syscall is answered in
    the state [fs.Open] left, and the state an operation leaves is the
    one after releasing the file in the state the syscall left: the
    descriptor is open during the syscall and closed last. *)
Theorem release_follows_syscall o relPath ctx w f st w1 :
  os (fs_Open relPath openFlags ctx) w = ((ptrFile f, st), w1) ->
  fuse.Ok st = true ->
  final (run_op os unpackXattrErr o relPath ctx w)
  = snd (os (Release (ptrFile f))
           (snd (os (attr_call o (procFd (intFd f))) w1))).
Proof.
  intros Hopen Hst.
  pose proof (getFileFd_file _ os _ _ _ _ _ _ Hopen Hst) as Hg.
  destruct o as [cAttr | cAttr cData flags | cAttr |];
    unfold run_op; cbn [final attr_call];
    unfold getXattr, setXattr, removeXAttr, listXAttr, bind, Monad_prog;
    rewrite run_bind, Hg; cbn [result final trace after fuse.Ok fuse.OK
                               Z.eqb negb app];
    rewrite run_defer; simpl.
  - destruct (os (xattr_Get _ _) w1) as [[cData [e |]] w2]; simpl;
      destruct (os (Release _) w2); reflexivity.
  - destruct (os (xattr_SetWithFlags _ _ _ _) w1) as [err w2]; simpl;
      destruct (os (Release _) w2); reflexivity.
  - destruct (os (xattr_Remove _ _) w1) as [err w2]; simpl;
      destruct (os (Release _) w2); reflexivity.
  - destruct (os (xattr_List _) w1) as [[cNames [e |]] w2]; simpl;
      destruct (os (Release _) w2); reflexivity.
Qed.

(** X7.  When the cast to [*File] fails, each of the four operations
    returns EIO with a nil payload; listXAttr does not turn this
    failure into an empty success. *)
Theorem cast_failure_surfaces_as_EIO relPath cAttr cData flags ctx w impl st w1 :
  os (fs_Open relPath openFlags ctx) w = ((otherFile impl, st), w1) ->
  fuse.Ok st = true ->
  result (run os (getXattr unpackXattrErr relPath cAttr ctx) w)
    = Returned (None, fuse.EIO)
  /\ result (run os (setXattr unpackXattrErr relPath cAttr cData flags ctx) w)
     = Returned fuse.EIO
  /\ result (run os (removeXAttr unpackXattrErr relPath cAttr ctx) w)
     = Returned fuse.EIO
  /\ result (run os (listXAttr unpackXattrErr relPath ctx) w)
     = Returned (None, fuse.EIO).
Proof.
  intros Hopen Hst.
  pose proof (getFileFd_other _ os _ _ _ _ _ _ Hopen Hst) as Hg.
  assert (Hacq : result (run os (getFileFd relPath ctx) w)
                 = Returned (None, -1, fuse.EIO))
    by (rewrite Hg; reflexivity).
  repeat split.
  - rewrite (getXattr_not_acquired _ os unpackXattrErr _ _ _ _ _ _ Hacq eq_refl).
    reflexivity.
  - rewrite (setXattr_not_acquired _ os unpackXattrErr _ _ _ _ _ _ Hacq eq_refl).
    reflexivity.
  - rewrite (removeXAttr_not_acquired _ os unpackXattrErr _ _ _ _ _ _ Hacq eq_refl).
    reflexivity.
  - rewrite (listXAttr_not_acquired _ os unpackXattrErr _ _ _ _ _ _ Hacq eq_refl).
    reflexivity.
Qed.

(** X8.  When [fs.Open] reports success and hands back a nil file
    object, every operation logs the warning and then panics in the
    [Release] call on that nil object: it returns no status, releases
    nothing and makes no attribute syscall. *)
Theorem nil_file_object_panics o relPath ctx w st w1 :
  os (fs_Open relPath openFlags ctx) w = ((nilFile, st), w1) ->
  fuse.Ok st = true ->
  result (run_op os unpackXattrErr o relPath ctx w) = Panicked
  /\ trace (run_op os unpackXattrErr o relPath ctx w)
     = [fs_Open relPath openFlags ctx;
        tlog_Warn "BUG: xattrGet: cast to *File failed"].
Proof.
  intros Hopen Hst.
  pose proof (getFileFd_nil _ os _ _ _ _ _ Hopen Hst) as Hg.
  assert (Hp : result (run os (getFileFd relPath ctx) w) = Panicked)
    by (rewrite Hg; reflexivity).
  destruct (run_op_panicked _ os unpackXattrErr o _ _ _ Hp) as [Htrace Hres].
  split; [exact Hres |].
  rewrite Htrace, Hg. reflexivity.
Qed.

(** X9.  Every operation opens the path exactly once, whatever
    happens afterwards, with the flags of [getFileFd] and the context
    of its caller: the path is never resolved a second time. *)
Theorem operation_opens_once o relPath ctx w :
  filter is_open (trace (run_op os unpackXattrErr o relPath ctx w))
  = [fs_Open relPath (Z.lor syscall.O_RDONLY syscall.O_NONBLOCK) ctx].
Proof.
  destruct (os (fs_Open relPath openFlags ctx) w) as [[ff st] w1] eqn:Hopen.
  rewrite (run_op_trace _ os unpackXattrErr _ _ _ _ _ _ _ Hopen).
  unfold expected_calls. fold openFlags.
  destruct (fuse.Ok st); [destruct ff |]; simpl;
    rewrite ?attr_call_is_not_open; reflexivity.
Qed.

(** X10.  The warning is logged exactly when [fs.Open] reports
    success without a [*File], and then once; no other path of any
    operation logs. *)
Theorem warning_only_on_cast_failure o relPath ctx w ff st w1 :
  os (fs_Open relPath openFlags ctx) w = ((ff, st), w1) ->
  filter is_warn (trace (run_op os unpackXattrErr o relPath ctx w))
  = if fuse.Ok st && negb (is_ptrFile ff)
    then [tlog_Warn "BUG: xattrGet: cast to *File failed"]
    else [].
Proof.
  intros Hopen.
  rewrite (run_op_trace _ os unpackXattrErr _ _ _ _ _ _ _ Hopen).
  unfold expected_calls.
  destruct (fuse.Ok st); [destruct ff |]; simpl;
    rewrite ?attr_call_is_not_warn; reflexivity.
Qed.

(** X11.  getXattr and listXAttr never issue a syscall that changes
    stored attributes, on any path and against any system. *)
Theorem read_operations_never_mutate relPath cAttr ctx w :
  filter is_mutation (trace (run os (getXattr unpackXattrErr relPath cAttr ctx) w))
    = []
  /\ filter is_mutation (trace (run os (listXAttr unpackXattrErr relPath ctx) w))
     = [].
Proof.
  destruct (os (fs_Open relPath openFlags ctx) w) as [[ff st] w1] eqn:Hopen.
  pose proof (run_op_trace _ os unpackXattrErr (opGet cAttr) _ _ _ _ _ _ Hopen)
    as Hget.
  pose proof (run_op_trace _ os unpackXattrErr opList _ _ _ _ _ _ Hopen)
    as Hlist.
  unfold run_op in Hget, Hlist. cbn [trace] in Hget, Hlist.
  rewrite Hget, Hlist. unfold expected_calls.
  destruct (fuse.Ok st); [destruct ff |]; split; reflexivity.
Qed.

(** X12.  Names too short to hold the prefix are disallowed, the empty
    name among them, and so is every name in the "trusted.",
    "security." or "system." namespace; the bare prefix "user."
    followed by anything, even nothing, is allowed. *)
Theorem disallowedXAttrName_namespaces attr rest :
  ((String.length attr < 5)%nat -> disallowedXAttrName attr = true)
  /\ disallowedXAttrName ("trusted." ++ rest) = true
  /\ disallowedXAttrName ("security." ++ rest) = true
  /\ disallowedXAttrName ("system." ++ rest) = true
  /\ disallowedXAttrName ("user." ++ rest) = false.
Proof.
  split; [| repeat split].
  - intros Hlen. unfold disallowedXAttrName, HasPrefix.
    replace (String.length xattrUserPrefix) with 5%nat by reflexivity.
    destruct (Nat.leb_spec 5 (String.length attr)); [lia | reflexivity].
  - unfold disallowedXAttrName, HasPrefix. simpl.
    rewrite substring_0_0. reflexivity.
Qed.

End Extras.

(** ** The gateway on the small system *)

Section Scenarios.

Import Model.

(** A value that was set is the value read back. *)
Example set_then_get :
  let e := run os (setXattr unpackXattrErr "doc.txt" "user.k"
                     (Some ["a"%byte; "b"%byte]) 0 ctx0) w0 in
  result e = Returned fuse.OK
  /\ result (run os (getXattr unpackXattrErr "doc.txt" "user.k" ctx0) (final e))
     = Returned (Some ["a"%byte; "b"%byte], fuse.OK).
Proof. split; reflexivity. Qed.

(** An attribute that was removed is no longer found. *)
Example remove_then_get :
  let e := run os (removeXAttr unpackXattrErr "doc.txt" "user.tag" ctx0) w0 in
  result e = Returned fuse.OK
  /\ result (run os (getXattr unpackXattrErr "doc.txt" "user.tag" ctx0) (final e))
     = Returned (None, syscall.ENODATA).
Proof. split; reflexivity. Qed.

(** A symbolic link lists as empty, and cannot be written to. *)
Example symlink_list_and_set :
  result (run os (listXAttr unpackXattrErr "link" ctx0) w0)
    = Returned (None, fuse.OK)
  /\ result (run os (setXattr unpackXattrErr "link" "user.k" (Some []) 0 ctx0) w0)
     = Returned syscall.ELOOP.
Proof. split; reflexivity. Qed.

(** No descriptor stays open after an operation, failed or not. *)
Example descriptors_back_to_baseline :
  fds (final (run os (getXattr unpackXattrErr "doc.txt" "user.none" ctx0) w0)) = []
  /\ fds (final (run os (listXAttr unpackXattrErr "boot.img" ctx0) w0)) = []
  /\ fds (final (run os (listXAttr unpackXattrErr "doc.txt" ctx0) w0)) = [].
Proof. repeat split. Qed.

End Scenarios.

(** ** The guarantees at work on the small system *)

Section Witnesses.

Import Model.

Lemma attr_syscall_targets_alias_witness :
  (result (run os (getFileFd "doc.txt" ctx0) w0)
     = Returned (Some file3, 3, fuse.OK)
   /\ fuse.Ok fuse.OK = true)
  /\ (let calls :=
        trace (run_op os unpackXattrErr (opGet "user.tag") "doc.txt" ctx0 w0) in
      filter is_attr_syscall calls = [xattr_Get "/proc/self/fd/3" "user.tag"]
      /\ (forall c, In c calls -> is_attr_syscall c = true ->
                    attr_target c = Some "/proc/self/fd/3")
      /\ (HasPrefix "doc.txt" "/" = false ->
          forall c, In c calls -> attr_target c <> Some "doc.txt")).
Proof.
  split; [split; reflexivity |].
  exact (attr_syscall_targets_alias world os unpackXattrErr
           (opGet "user.tag") "doc.txt" ctx0 w0 (Some file3) 3 fuse.OK
           eq_refl eq_refl).
Defined.

Lemma listXAttr_acquisition_failure_witness :
  (result (run os (getFileFd "link" ctx0) w0)
     = Returned (None, -1, syscall.ELOOP)
   /\ fuse.Ok syscall.ELOOP = false)
  /\ result (run os (listXAttr unpackXattrErr "link" ctx0) w0)
     = Returned (None, fuse.OK).
Proof.
  split; [split; reflexivity |].
  exact (proj1 (listXAttr_acquisition_failure world os unpackXattrErr
                  "link" ctx0 w0 None (-1) syscall.ELOOP eq_refl eq_refl)
               eq_refl).
Defined.

Lemma disallowedXAttrName_spec_witness :
  disallowedXAttrName "user.mime_type" = false.
Proof.
  apply (proj1 (disallowedXAttrName_spec "user.mime_type")).
  exists "mime_type". reflexivity.
Defined.

Lemma handle_released_exactly_once_witness :
  os (fs_Open "doc.txt" openFlags ctx0) w0
    = ((ptrFile file3, fuse.OK),
       mkWorld (tree w0) [(3, "doc.txt")] [])
  /\ filter is_release
       (trace (run_op os unpackXattrErr (opRemove "user.none") "doc.txt" ctx0 w0))
     = [Release (ptrFile file3)].
Proof.
  split; [reflexivity |].
  refine (proj1 (handle_released_exactly_once world os unpackXattrErr
                   (opRemove "user.none") "doc.txt" ctx0 w0
                   (ptrFile file3) fuse.OK _ eq_refl) eq_refl _).
  discriminate.
Defined.

Lemma acquisition_failure_short_circuits_witness :
  (result (run os (getFileFd "missing" ctx0) w0)
     = Returned (None, -1, syscall.ENOENT)
   /\ fuse.Ok syscall.ENOENT = false)
  /\ run os (getXattr unpackXattrErr "missing" "user.tag" ctx0) w0
     = mkExecution (Returned (None, syscall.ENOENT)) w0
         [fs_Open "missing" openFlags ctx0].
Proof.
  split; [split; reflexivity |].
  exact (proj1 (acquisition_failure_short_circuits world os unpackXattrErr
                  "missing" "user.tag" None 0 ctx0 w0 None (-1) syscall.ENOENT
                  eq_refl eq_refl)).
Defined.

Lemma getFileFd_opens_rdonly_nonblock_witness :
  hd_error (trace (run os (getFileFd "doc.txt" ctx0) w0))
  = Some (fs_Open "doc.txt" 2048 ctx0).
Proof.
  exact (proj1 (getFileFd_opens_rdonly_nonblock world os "doc.txt" ctx0 w0)).
Defined.

Lemma setXattr_passes_flags_unmodified_witness :
  (result (run os (getFileFd "doc.txt" ctx0) w0)
     = Returned (Some file3, 3, fuse.OK)
   /\ fuse.Ok fuse.OK = true)
  /\ filter is_attr_syscall
       (trace (run os (setXattr unpackXattrErr "doc.txt" "user.tag"
                         (Some ["y"%byte]) XATTR_CREATE ctx0) w0))
     = [xattr_SetWithFlags "/proc/self/fd/3" "user.tag"
          (Some ["y"%byte]) XATTR_CREATE].
Proof.
  split; [split; reflexivity |].
  exact (proj2 (setXattr_passes_flags_unmodified world os unpackXattrErr)
           "doc.txt" "user.tag" (Some ["y"%byte]) XATTR_CREATE ctx0 w0
           (Some file3) 3 fuse.OK eq_refl eq_refl).
Defined.


Lemma gateway_has_no_namespace_check_witness :
  disallowedXAttrName "trusted.overlay.opaque" = true
  /\ trace (run_op os unpackXattrErr
              (opSet "trusted.overlay.opaque" (Some ["y"%byte]) 0)
              "doc.txt" ctx0 w0)
     = [fs_Open "doc.txt" openFlags ctx0;
        xattr_SetWithFlags "/proc/self/fd/3" "trusted.overlay.opaque"
          (Some ["y"%byte]) 0;
        Release (ptrFile file3)].
Proof.
  split; [reflexivity |].
  exact (proj1 (gateway_has_no_namespace_check world os unpackXattrErr
                  (opSet "trusted.overlay.opaque" (Some ["y"%byte]) 0)
                  "doc.txt" ctx0 w0 (ptrFile file3) fuse.OK
                  (mkWorld (tree w0) [(3, "doc.txt")] []) eq_refl)).
Defined.

Lemma listXAttr_syscall_failure_not_downgraded_witness :
  (os (fs_Open "boot.img" openFlags ctx0) w0
     = ((ptrFile file3, fuse.OK), mkWorld (tree w0) [(3, "boot.img")] [])
   /\ fuse.Ok (unpackXattrErr
                 (Some (XattrError "xattr.list" "/proc/self/fd/3" ""
                          syscall.ENOTSUP))) = false)
  /\ result (run os (listXAttr unpackXattrErr "boot.img" ctx0) w0)
     = Returned (None, syscall.ENOTSUP).
Proof.
  split; [split; reflexivity |].
  exact (proj1 (listXAttr_syscall_failure_not_downgraded world os unpackXattrErr
                  "boot.img" ctx0 w0 file3 fuse.OK
                  (mkWorld (tree w0) [(3, "boot.img")] []) None
                  (XattrError "xattr.list" "/proc/self/fd/3" "" syscall.ENOTSUP)
                  (mkWorld (tree w0) [(3, "boot.img")] [])
                  eq_refl eq_refl eq_refl)).
Defined.


End Witnesses.

Section ExtraWitnesses.

Import Model.

Lemma procFd_distinct_witness : 3 <> 4 /\ procFd 3 <> procFd 4.
Proof.
  split; [discriminate |].
  apply (procFd_distinct 3 4). discriminate.
Defined.

Lemma getFileFd_result_invariant_witness :
  result (run os (getFileFd "doc.txt" ctx0) w0) = Returned (Some file3, 3, fuse.OK)
  /\ ((fuse.Ok fuse.OK = true <-> Some file3 <> None)
      /\ (Some file3 = None -> 3 = -1)
      /\ (forall f, Some file3 = Some f -> 3 = intFd f /\ fuse.OK = fuse.OK)).
Proof.
  split; [reflexivity |].
  exact (getFileFd_result_invariant world os "doc.txt" ctx0 w0
           (Some file3) 3 fuse.OK eq_refl).
Defined.

Lemma getXattr_result_witness :
  (os (fs_Open "doc.txt" openFlags ctx0) w0 = ((ptrFile file3, fuse.OK), w0_open)
   /\ os (xattr_Get "/proc/self/fd/3" "user.tag") w0_open
      = ((Some ["x"%byte], None), w0_open))
  /\ result (run os (getXattr unpackXattrErr "doc.txt" "user.tag" ctx0) w0)
     = Returned (Some ["x"%byte], fuse.OK).
Proof.
  split; [split; reflexivity |].
  exact (getXattr_result world os unpackXattrErr "doc.txt" "user.tag" ctx0 w0
           file3 fuse.OK w0_open (Some ["x"%byte]) None w0_open
           eq_refl eq_refl eq_refl).
Defined.

Lemma set_remove_status_is_translated_witness :
  os (fs_Open "doc.txt" openFlags ctx0) w0 = ((ptrFile file3, fuse.OK), w0_open)
  /\ result (run os (setXattr unpackXattrErr "doc.txt" "user.tag"
                       (Some ["y"%byte]) XATTR_CREATE ctx0) w0)
     = Returned syscall.EEXIST
  /\ result (run os (removeXAttr unpackXattrErr "doc.txt" "user.tag" ctx0) w0)
     = Returned fuse.OK.
Proof.
  split; [reflexivity |].
  exact (set_remove_status_is_translated world os unpackXattrErr
           "doc.txt" "user.tag" (Some ["y"%byte]) XATTR_CREATE ctx0 w0
           file3 fuse.OK w0_open eq_refl eq_refl).
Defined.

Lemma listXAttr_returns_names_unfiltered_witness :
  disallowedXAttrName "security.selinux" = true
  /\ result (run os (listXAttr unpackXattrErr "doc.txt" ctx0) w_mixed)
     = Returned (Some ["security.selinux"; "user.tag"], fuse.OK).
Proof.
  split; [reflexivity |].
  exact (listXAttr_returns_names_unfiltered world os unpackXattrErr
           "doc.txt" ctx0 w_mixed file3 fuse.OK
           (mkWorld (tree w_mixed) [(3, "doc.txt")] [])
           (Some ["security.selinux"; "user.tag"])
           (mkWorld (tree w_mixed) [(3, "doc.txt")] [])
           eq_refl eq_refl eq_refl).
Defined.

Lemma release_follows_syscall_witness :
  os (fs_Open "doc.txt" openFlags ctx0) w0 = ((ptrFile file3, fuse.OK), w0_open)
  /\ final (run_op os unpackXattrErr (opRemove "user.tag") "doc.txt" ctx0 w0)
     = snd (os (Release (ptrFile file3))
              (snd (os (xattr_Remove "/proc/self/fd/3" "user.tag") w0_open))).
Proof.
  split; [reflexivity |].
  exact (release_follows_syscall world os unpackXattrErr (opRemove "user.tag")
           "doc.txt" ctx0 w0 file3 fuse.OK w0_open eq_refl eq_refl).
Defined.

Lemma cast_failure_surfaces_as_EIO_witness :
  os (fs_Open "ctl" openFlags ctx0) w0 = ((otherFile "loopback", fuse.OK), w0)
  /\ result (run os (listXAttr unpackXattrErr "ctl" ctx0) w0)
     = Returned (None, fuse.EIO).
Proof.
  split; [reflexivity |].
  exact (proj2 (proj2 (proj2
           (cast_failure_surfaces_as_EIO world os unpackXattrErr
              "ctl" "user.tag" None 0 ctx0 w0 "loopback" fuse.OK w0
              eq_refl eq_refl)))).
Defined.

Lemma nil_file_object_panics_witness :
  (os_faulty (fs_Open "ghost" openFlags ctx0) w0 = ((nilFile, fuse.OK), w0)
   /\ fuse.Ok fuse.OK = true)
  /\ result (run_op os_faulty unpackXattrErr (opGet "user.tag") "ghost" ctx0 w0)
     = Panicked
  /\ trace (run_op os_faulty unpackXattrErr (opGet "user.tag") "ghost" ctx0 w0)
     = [fs_Open "ghost" openFlags ctx0;
        tlog_Warn "BUG: xattrGet: cast to *File failed"].
Proof.
  split; [split; reflexivity |].
  exact (nil_file_object_panics world os_faulty unpackXattrErr (opGet "user.tag")
           "ghost" ctx0 w0 fuse.OK w0 eq_refl eq_refl).
Defined.

Lemma warning_only_on_cast_failure_witness :
  os (fs_Open "ctl" openFlags ctx0) w0 = ((otherFile "loopback", fuse.OK), w0)
  /\ filter is_warn (trace (run_op os unpackXattrErr (opGet "user.tag") "ctl" ctx0 w0))
     = [tlog_Warn "BUG: xattrGet: cast to *File failed"].
Proof.
  split; [reflexivity |].
  exact (warning_only_on_cast_failure world os unpackXattrErr (opGet "user.tag")
           "ctl" ctx0 w0 (otherFile "loopback") fuse.OK w0 eq_refl).
Defined.

Lemma disallowedXAttrName_namespaces_witness :
  (String.length "user" < 5)%nat /\ disallowedXAttrName "user" = true.
Proof.
  split; [repeat constructor |].
  apply (proj1 (disallowedXAttrName_namespaces "user" "")).
  repeat constructor.
Defined.

End ExtraWitnesses.
